(** * Central Joias backend: a model of [main.py] and its properties

    The FastAPI application of [main.py] is embedded as pure functions over
    an explicit database state.  The third-party services the module talks
    to (python-jose, FastAPI's [HTTPBearer], pydantic, MongoDB through
    motor, Cloudinary) are modelled as far as [main.py] uses them. *)

From stdpp Require Import gmap strings pretty list fin_maps.
From Stdlib Require Import ZArith.
From Stdlib Require QArith.

Local Open Scope Z_scope.

(** ** Values *)

(** Python floats are only carried around by the application (prices are
    never computed with), so a rational stands for the number written in
    the request. *)
Abbreviation float := QArith_base.Q.

(** The values found in JSON bodies, pydantic dumps and stored documents.
    [VDatetime] counts microseconds since the epoch (the resolution of
    Python's [datetime]); [VObjectId] is the identifier MongoDB assigns to
    the [_id] field. *)
#[warnings="-register-all"]
Inductive val : Type :=
| VNull
| VBool (b : bool)
| VInt (n : Z)
| VFloat (x : float)
| VStr (s : string)
| VDatetime (us : Z)
| VObjectId (n : nat)
| VList (l : list val)
| VDict (d : gmap string val).

(** A Python [dict] with string keys, and a MongoDB document. *)
Abbreviation document := (gmap string val).

(** ** Outcome of a request handler *)

Inductive exn : Type :=
| KeyError (key : string).

(** A handler returns, raises [HTTPException(status_code, detail)], or lets
    another exception escape (FastAPI then answers 500). *)
Inductive result (A : Type) : Type :=
| Return (a : A)
| HTTPException (status_code : Z) (detail : string)
| Uncaught (e : exn).
Arguments Return {A} a.
Arguments HTTPException {A} status_code detail.
Arguments Uncaught {A} e.

(** ** python-jose *)

(** A symbolic model of [jose.jwt]: a compact token is either a string that
    [jws._load] cannot split and decode, or a JWS with the algorithm named
    in its header, its payload (when that is a JSON object) and the key
    under which its signature verifies (none for a forged signature).
    Signatures are ideal: a signature made with one key verifies under that
    key only, and the configured key and algorithm are ones the library
    signs with. *)
Module jose.

(** The registered claims [jwt.decode] looks at.  [T] is the type of the
    time claims: [numeric_date] in what the application hands to
    [jwt.encode], whole seconds in a token. *)
Record Claims (T : Type) : Type := {
  sub : option val;
  exp : option T;
  nbf : option T;
  iat : option T;
  aud : option val;
  jti : option val;
  at_hash : option val
}.
Arguments sub {T} c.
Arguments exp {T} c.
Arguments nbf {T} c.
Arguments iat {T} c.
Arguments aud {T} c.
Arguments jti {T} c.
Arguments at_hash {T} c.

Inductive numeric_date : Type :=
| IntDate (seconds : Z)
| Datetime (us : Z).

Inductive token : Type :=
| Unparsable (raw : string)
| JWS (alg : string) (payload : option (Claims Z)) (signed_with : option string).

Inductive JWTError : Type :=
| JWSError (msg : string)
| InvalidPayload
| ExpiredSignatureError
| JWTClaimsError (claim : string).

(** [timegm(dt.utctimetuple())]: the whole seconds of a datetime. *)
Definition timegm (us : Z) : Z := us `div` 1000000.

Definition intdate (d : numeric_date) : Z :=
  match d with
  | IntDate s => s
  | Datetime us => timegm us
  end.

(** [jwt.encode(claims, key, algorithm)]: datetimes in [exp], [iat] and
    [nbf] become whole seconds, then the claims are signed. *)
Definition encode (claims : Claims numeric_date) (key algorithm : string) : token :=
  JWS algorithm
      (Some {| sub := sub claims;
               exp := intdate <$> exp claims;
               nbf := intdate <$> nbf claims;
               iat := intdate <$> iat claims;
               aud := aud claims;
               jti := jti claims;
               at_hash := at_hash claims |})
      (Some key).

Definition is_str (v : val) : bool :=
  match v with VStr _ => true | _ => false end.

(** [_validate_claims] with the default options and no audience, issuer,
    subject or access token, at [now] whole seconds: the checks in the
    library's order, the first failure wins.  The token is still accepted
    in the second its [exp] names ([exp < now] is what rejects). *)
Definition validate_claims (now : Z) (c : Claims Z) : option JWTError :=
  match nbf c with
  | Some n => if now <? n then Some (JWTClaimsError "nbf") else None
  | None => None
  end ∪
  match exp c with
  | Some e => if e <? now then Some ExpiredSignatureError else None
  | None => None
  end ∪
  match aud c with
  | Some _ => Some (JWTClaimsError "aud")
  | None => None
  end ∪
  match sub c with
  | Some v => if is_str v then None else Some (JWTClaimsError "sub")
  | None => None
  end ∪
  match jti c with
  | Some v => if is_str v then None else Some (JWTClaimsError "jti")
  | None => None
  end ∪
  match at_hash c with
  | Some _ => Some (JWTClaimsError "at_hash")
  | None => None
  end.

(** [jwt.decode(token, key, algorithms=...)] at clock reading [now_us]. *)
Definition decode (now_us : Z) (t : token) (key : string) (algorithms : list string)
  : JWTError + Claims Z :=
  match t with
  | Unparsable _ => inl (JWSError "Not enough segments")
  | JWS alg payload signed_with =>
      if bool_decide (alg ∈ algorithms) then
        if bool_decide (signed_with = Some key) then
          match payload with
          | None => inl InvalidPayload
          | Some claims =>
              match validate_claims (timegm now_us) claims with
              | Some e => inl e
              | None => inr claims
              end
          end
        else inl (JWSError "Signature verification failed.")
      else inl (JWSError "The specified alg value is not allowed")
  end.

End jose.

(** ** Configuration read from the environment (lines 27-40) *)

Record Environ : Type := {
  env_MONGO_URL : option string;
  env_DB_NAME : option string;
  env_JWT_SECRET_KEY : option string;
  env_JWT_ALGORITHM : option string;
  (** the integer the variable's text denotes, when it is set *)
  env_JWT_EXPIRATION_HOURS : option Z;
  env_ADMIN_USERNAME : option string;
  env_ADMIN_PASSWORD : option string
}.

Record Config : Type := {
  MONGO_URL : string;
  DB_NAME : string;
  JWT_SECRET : string;
  JWT_ALGORITHM : string;
  JWT_EXPIRATION_HOURS : Z;
  ADMIN_USER : option string;
  ADMIN_PASS : option string
}.

(** [os.getenv(name)] followed by the truth test [not x]: unset and empty
    are both rejected. *)
Definition required (o : option string) : option string :=
  match o with
  | Some s => if bool_decide (s = "") then None else Some s
  | None => None
  end.

(** The module's top level; [None] stands for the [RuntimeError] that
    aborts start-up. *)
Definition load_config (e : Environ) : option Config :=
  match required (env_MONGO_URL e), required (env_DB_NAME e) with
  | Some url, Some name =>
      match required (env_JWT_SECRET_KEY e), required (env_JWT_ALGORITHM e) with
      | Some secret, Some alg =>
          Some {| MONGO_URL := url;
                  DB_NAME := name;
                  JWT_SECRET := secret;
                  JWT_ALGORITHM := alg;
                  JWT_EXPIRATION_HOURS := default 24 (env_JWT_EXPIRATION_HOURS e);
                  ADMIN_USER := env_ADMIN_USERNAME e;
                  ADMIN_PASS := env_ADMIN_PASSWORD e |}
      | _, _ => None
      end
  | _, _ => None
  end.

(** ** MongoDB collections *)

(** What [main.py] asks of a collection: [find] and [find_one] with a
    one-field equality filter and the projection [{"_id": 0}],
    [to_list(n)], [insert_one], and [update_one] with [$set].  A collection
    is the sequence of its documents in natural order; nothing removes or
    reorders documents.  Field names in [$set] are top-level fields of the
    application's documents; what MongoDB treats specially (dotted paths,
    operator names, the immutable [_id], equality matching inside arrays)
    is not part of the model. *)
Module mongo.

Inductive scalar : Type :=
| SBool (b : bool)
| SStr (s : string).

(** The filter [{field: scalar}]. *)
Definition query : Type := string * scalar.

Definition holds (s : scalar) (v : val) : bool :=
  match s, v with
  | SBool b, VBool b' => bool_decide (b = b')
  | SStr x, VStr y => bool_decide (x = y)
  | _, _ => false
  end.

Definition matches (q : query) (d : document) : bool :=
  match d !! q.1 with
  | Some v => holds q.2 v
  | None => false
  end.

Definition embed (s : scalar) : val :=
  match s with
  | SBool b => VBool b
  | SStr x => VStr x
  end.

(** The projection [{"_id": 0}]. *)
Definition without_id (d : document) : document := delete "_id" d.

Definition find (coll : list document) (q : query) : list document :=
  without_id <$> List.filter (matches q) coll.

Definition to_list (n : nat) (cursor : list document) : list document :=
  take n cursor.

Definition find_one (coll : list document) (q : query) : option document :=
  head (find coll q).

(** A document stored without an [_id] is given a fresh one; documents
    are never removed, so the position it is stored at is fresh. *)
Definition with_id (oid : nat) (d : document) : document :=
  match d !! "_id" with
  | Some _ => d
  | None => <["_id" := VObjectId oid]> d
  end.

Definition insert_one (coll : list document) (d : document) : list document :=
  coll ++ [with_id (length coll) d].

(** [$set]: the named fields take the given values, the others stay. *)
Definition set_fields (data d : document) : document := data ∪ d.

(** Apply [$set] to the first document that matches; [None] when none
    does. *)
Fixpoint update_first (coll : list document) (q : query) (data : document)
  : option (list document) :=
  match coll with
  | [] => None
  | d :: rest =>
      if matches q d then Some (set_fields data d :: rest)
      else (d ::.) <$> update_first rest q data
  end.

(** [update_one(filter, {"$set": data}, upsert=...)].  Without a match
    and with [upsert], the new document is built from the filter's
    equality and then updated. *)
Definition update_one (coll : list document) (q : query)
           (data : document) (upsert : bool) : list document :=
  match update_first coll q data with
  | Some coll' => coll'
  | None =>
      if upsert
      then insert_one coll (set_fields data {[ q.1 := embed q.2 ]})
      else coll
  end.

End mongo.

(** The three collections of [db]. *)
Record DB : Type := {
  home_content : list document;
  categories : list document;
  products : list document
}.

Definition set_home_content (db : DB) (c : list document) : DB :=
  {| home_content := c; categories := categories db; products := products db |}.

Definition set_categories (db : DB) (c : list document) : DB :=
  {| home_content := home_content db; categories := c; products := products db |}.

Definition set_products (db : DB) (c : list document) : DB :=
  {| home_content := home_content db; categories := categories db; products := c |}.

Definition empty_db : DB :=
  {| home_content := []; categories := []; products := [] |}.

(** ** Pydantic models (lines 101-196) *)

(** Each model is a record with its [model_dump()]; [new] is the model
    built without arguments.  A request body names each field that has a
    default optionally; [validate] is what pydantic builds from it, drawing
    the default factories' values ([uuid4()], the clock) from its arguments.
    Bodies that fail validation (answered 422 by the framework) are not
    represented. *)

Module HomeBranding.
Record t : Type := { nome_loja : string; slogan : string; logo_url : string }.
Definition new : t := {| nome_loja := ""; slogan := ""; logo_url := "" |}.
Definition model_dump (m : t) : document :=
  list_to_map [("nome_loja", VStr (nome_loja m)); ("slogan", VStr (slogan m));
               ("logo_url", VStr (logo_url m))].
End HomeBranding.

Module HomeHero.
Record t : Type := {
  imagem : string; titulo : string; texto : list string;
  frase_impacto : string; cta_texto : string; cta_link : string
}.
Definition new : t :=
  {| imagem := ""; titulo := ""; texto := []; frase_impacto := "";
     cta_texto := ""; cta_link := "" |}.
Definition model_dump (m : t) : document :=
  list_to_map [("imagem", VStr (imagem m)); ("titulo", VStr (titulo m));
               ("texto", VList (VStr <$> texto m));
               ("frase_impacto", VStr (frase_impacto m));
               ("cta_texto", VStr (cta_texto m)); ("cta_link", VStr (cta_link m))].
End HomeHero.

Module HomeSobre.
Record t : Type := {
  titulo : string; mensagens : list string; textos : list string; fotos : list string
}.
Definition new : t := {| titulo := ""; mensagens := []; textos := []; fotos := [] |}.
Definition model_dump (m : t) : document :=
  list_to_map [("titulo", VStr (titulo m)); ("mensagens", VList (VStr <$> mensagens m));
               ("textos", VList (VStr <$> textos m)); ("fotos", VList (VStr <$> fotos m))].
End HomeSobre.

Module HomeContato.
Record t : Type := {
  titulo : string; subtitulo : string; instagram_url : string; lojas : list document
}.
Definition new : t :=
  {| titulo := ""; subtitulo := ""; instagram_url := ""; lojas := [] |}.
Definition model_dump (m : t) : document :=
  list_to_map [("titulo", VStr (titulo m)); ("subtitulo", VStr (subtitulo m));
               ("instagram_url", VStr (instagram_url m));
               ("lojas", VList (VDict <$> lojas m))].
End HomeContato.

Module HomeFooter.
Record t : Type := {
  institucional : string; cnpj : string; selo_texto : string;
  lojas : list document; certificados : list string
}.
Definition new : t :=
  {| institucional := ""; cnpj := ""; selo_texto := ""; lojas := []; certificados := [] |}.
Definition model_dump (m : t) : document :=
  list_to_map [("institucional", VStr (institucional m)); ("cnpj", VStr (cnpj m));
               ("selo_texto", VStr (selo_texto m));
               ("lojas", VList (VDict <$> lojas m));
               ("certificados", VList (VStr <$> certificados m))].
End HomeFooter.

Module HomeContent.
Record t : Type := {
  slug : string;
  branding : HomeBranding.t;
  hero : HomeHero.t;
  sobre : HomeSobre.t;
  contato : HomeContato.t;
  footer : HomeFooter.t
}.
Definition new : t :=
  {| slug := "home"; branding := HomeBranding.new; hero := HomeHero.new;
     sobre := HomeSobre.new; contato := HomeContato.new;
     footer := HomeFooter.new |}.
Definition model_dump (m : t) : document :=
  list_to_map [("slug", VStr (slug m));
               ("branding", VDict (HomeBranding.model_dump (branding m)));
               ("hero", VDict (HomeHero.model_dump (hero m)));
               ("sobre", VDict (HomeSobre.model_dump (sobre m)));
               ("contato", VDict (HomeContato.model_dump (contato m)));
               ("footer", VDict (HomeFooter.model_dump (footer m)))].
End HomeContent.

Module Category.
Record t : Type := {
  id : string; nome : string; slug : string; ativo : bool; created_at : Z
}.
Record body : Type := {
  body_id : option string; body_nome : string; body_slug : string;
  body_ativo : option bool; body_created_at : option Z
}.
Definition validate (uuid4 : string) (now : Z) (b : body) : t :=
  {| id := default uuid4 (body_id b);
     nome := body_nome b;
     slug := body_slug b;
     ativo := default true (body_ativo b);
     created_at := default now (body_created_at b) |}.
Definition model_dump (m : t) : document :=
  list_to_map [("id", VStr (id m)); ("nome", VStr (nome m)); ("slug", VStr (slug m));
               ("ativo", VBool (ativo m)); ("created_at", VDatetime (created_at m))].
End Category.

Module ProductSpec.
Record t : Type := { label : string; value : string }.
Definition model_dump (m : t) : document :=
  list_to_map [("label", VStr (label m)); ("value", VStr (value m))].
End ProductSpec.

Module ProductCarousel.
Record t : Type := { home : bool; promo : bool; destaque : bool; order : Z }.
Record body : Type := {
  body_home : option bool; body_promo : option bool;
  body_destaque : option bool; body_order : option Z
}.
Definition new : t := {| home := false; promo := false; destaque := false; order := 0 |}.
Definition validate (b : body) : t :=
  {| home := default false (body_home b);
     promo := default false (body_promo b);
     destaque := default false (body_destaque b);
     order := default 0 (body_order b) |}.
Definition model_dump (m : t) : document :=
  list_to_map [("home", VBool (home m)); ("promo", VBool (promo m));
               ("destaque", VBool (destaque m)); ("order", VInt (order m))].
End ProductCarousel.

Module Product.
Record t : Type := {
  id : string;
  name : string;
  category : string;
  price : float;
  promo_active : bool;
  promo_price : option float;
  images : list string;
  specs : list ProductSpec.t;
  carousel : ProductCarousel.t;
  active : bool;
  created_at : Z
}.
(** [body_promo_price]: absent, or present with [null] or a number. *)
Record body : Type := {
  body_id : option string;
  body_name : string;
  body_category : string;
  body_price : float;
  body_promo_active : option bool;
  body_promo_price : option (option float);
  body_images : option (list string);
  body_specs : option (list ProductSpec.t);
  body_carousel : option ProductCarousel.body;
  body_active : option bool;
  body_created_at : option Z
}.
Definition validate (uuid4 : string) (now : Z) (b : body) : t :=
  {| id := default uuid4 (body_id b);
     name := body_name b;
     category := body_category b;
     price := body_price b;
     promo_active := default false (body_promo_active b);
     promo_price := default None (body_promo_price b);
     images := default [] (body_images b);
     specs := default [] (body_specs b);
     carousel := default ProductCarousel.new (ProductCarousel.validate <$> body_carousel b);
     active := default true (body_active b);
     created_at := default now (body_created_at b) |}.
Definition model_dump (m : t) : document :=
  list_to_map [("id", VStr (id m)); ("name", VStr (name m));
               ("category", VStr (category m)); ("price", VFloat (price m));
               ("promo_active", VBool (promo_active m));
               ("promo_price", from_option VFloat VNull (promo_price m));
               ("images", VList (VStr <$> images m));
               ("specs", VList ((λ s, VDict (ProductSpec.model_dump s)) <$> specs m));
               ("carousel", VDict (ProductCarousel.model_dump (carousel m)));
               ("active", VBool (active m));
               ("created_at", VDatetime (created_at m))].
(** The body that names the required fields only. *)
Definition minimal (name category : string) (price : float) : body :=
  {| body_id := None; body_name := name; body_category := category;
     body_price := price; body_promo_active := None; body_promo_price := None;
     body_images := None; body_specs := None; body_carousel := None;
     body_active := None; body_created_at := None |}.
End Product.

Module AdminLogin.
Record t : Type := { username : string; password : string }.
End AdminLogin.

Module Token.
Record t : Type := { access_token : jose.token; token_type : string }.
End Token.

(** ** Cloudinary *)

Module cloudinary.
(** [cloudinary.uploader.upload] answers with a dict or raises. *)
Inductive outcome : Type :=
| Uploaded (result : document)
| Raised (message : string).
End cloudinary.

(** ** The application (lines 65-312) *)

(** What a request reads from outside the database: the clock
    ([datetime.now(timezone.utc)], in microseconds since the epoch, as an
    unbounded integer), the next [uuid.uuid4()], and the media host behind
    [cloudinary.uploader.upload]. *)
Record io : Type := {
  clock : Z;
  uuid4 : string;
  uploader : string → string → cloudinary.outcome
}.

(** JSON responses: a pydantic model or a dict, as the handler returns. *)
Inductive response : Type :=
| RToken (t : Token.t)
| RDict (d : document)
| RList (l : list document)
| RCategory (c : Category.t)
| RProduct (p : Product.t).

Inductive request : Type :=
| POST_admin_login (data : AdminLogin.t)
| GET_home_content
| PUT_home_content (authorization : option jose.token) (data : document)
| GET_categories
| POST_categories (authorization : option jose.token) (category : Category.body)
| GET_products
| POST_products (authorization : option jose.token) (product : Product.body)
| PUT_products (authorization : option jose.token) (id : string) (data : document)
| DELETE_products (authorization : option jose.token) (id : string)
| POST_upload (authorization : option jose.token) (file : string).

Definition timedelta_hours (h : Z) : Z := h * 3600000000.

Definition ok : document := {[ "ok" := VBool true ]}.

Section app.

(** The module-level settings. *)
Variable cfg : Config.

(** The status with which [HTTPBearer] turns away a request that has no
    bearer credentials: 403 in older FastAPI releases, 401 in recent ones. *)
Variable HTTP_NOT_AUTHENTICATED : Z.

(** [security = HTTPBearer()] (line 67), on the bearer credentials of the
    [Authorization] header, [None] when the header is missing. *)
Definition security (authorization : option jose.token) : result jose.token :=
  match authorization with
  | Some credentials => Return credentials
  | None => HTTPException HTTP_NOT_AUTHENTICATED "Not authenticated"
  end.

(** Lines 86-95. *)
Definition verify_token (now : Z) (credentials : jose.token) : result val :=
  match jose.decode now credentials (JWT_SECRET cfg) [JWT_ALGORITHM cfg] with
  | inr payload =>
      match jose.sub payload with
      | Some s => Return s
      | None => Uncaught (KeyError "sub")
      end
  | inl _ => HTTPException 401 "Token inválido"
  end.

(** [Depends(verify_token)], itself depending on [security]: the handler
    body runs only when both return. *)
Definition Depends_verify_token {A : Type} (now : Z) (authorization : option jose.token)
           (body : val → DB → result A * DB) (db : DB) : result A * DB :=
  match security authorization with
  | Return credentials =>
      match verify_token now credentials with
      | Return user => body user db
      | HTTPException status detail => (HTTPException status detail, db)
      | Uncaught e => (Uncaught e, db)
      end
  | HTTPException status detail => (HTTPException status detail, db)
  | Uncaught e => (Uncaught e, db)
  end.

(** Lines 198-211. *)
Definition admin_login (now : Z) (data : AdminLogin.t) : result Token.t :=
  if bool_decide (Some (AdminLogin.username data) ≠ ADMIN_USER cfg)
     || bool_decide (Some (AdminLogin.password data) ≠ ADMIN_PASS cfg)
  then HTTPException 401 "Credenciais inválidas"
  else
    let expire := now + timedelta_hours (JWT_EXPIRATION_HOURS cfg) in
    let token :=
      jose.encode
        {| jose.sub := Some (VStr (AdminLogin.username data));
           jose.exp := Some (jose.Datetime expire);
           jose.nbf := None; jose.iat := None; jose.aud := None;
           jose.jti := None; jose.at_hash := None |}
        (JWT_SECRET cfg) (JWT_ALGORITHM cfg) in
    Return {| Token.access_token := token; Token.token_type := "bearer" |}.

(** Lines 217-220; [data or ...] also replaces an empty dict. *)
Definition get_home_content (db : DB) : document :=
  match mongo.find_one (home_content db) ("slug", mongo.SStr "home") with
  | Some data =>
      if bool_decide (size data = 0%nat)
      then HomeContent.model_dump HomeContent.new
      else data
  | None => HomeContent.model_dump HomeContent.new
  end.

(** Lines 222-232. *)
Definition update_home_content (now : Z) (authorization : option jose.token)
           (data : document) : DB → result document * DB :=
  Depends_verify_token now authorization (λ user db,
    (Return ok,
     set_home_content db
       (mongo.update_one (home_content db) ("slug", mongo.SStr "home") data true))).

(** Lines 238-243. *)
Definition get_categories (db : DB) : list document :=
  mongo.to_list 1000 (mongo.find (categories db) ("ativo", mongo.SBool true)).

(** Lines 245-251. *)
Definition create_category (now : Z) (authorization : option jose.token)
           (category : Category.t) : DB → result Category.t * DB :=
  Depends_verify_token now authorization (λ user db,
    (Return category,
     set_categories db (mongo.insert_one (categories db) (Category.model_dump category)))).

(** Lines 257-262. *)
Definition get_products (db : DB) : list document :=
  mongo.to_list 1000 (mongo.find (products db) ("active", mongo.SBool true)).

(** Lines 264-270. *)
Definition create_product (now : Z) (authorization : option jose.token)
           (product : Product.t) : DB → result Product.t * DB :=
  Depends_verify_token now authorization (λ user db,
    (Return product,
     set_products db (mongo.insert_one (products db) (Product.model_dump product)))).

(** Lines 272-282. *)
Definition update_product (now : Z) (authorization : option jose.token)
           (id : string) (data : document) : DB → result document * DB :=
  Depends_verify_token now authorization (λ user db,
    (Return ok,
     set_products db (mongo.update_one (products db) ("id", mongo.SStr id) data false))).

(** Lines 284-293. *)
Definition delete_product (now : Z) (authorization : option jose.token)
           (id : string) : DB → result document * DB :=
  Depends_verify_token now authorization (λ user db,
    (Return ok,
     set_products db
       (mongo.update_one (products db) ("id", mongo.SStr id)
                         {[ "active" := VBool false ]} false))).

(** Lines 299-312; a missing [secure_url] is a [KeyError] caught by
    [except Exception]. *)
Definition upload_image (now : Z) (authorization : option jose.token)
           (upload : string → string → cloudinary.outcome) (file : string)
  : DB → result document * DB :=
  Depends_verify_token now authorization (λ user db,
    (match upload file "central_joias/products" with
     | cloudinary.Uploaded result =>
         match result !! "secure_url" with
         | Some url => Return {[ "url" := url ]}
         | None => HTTPException 500 "'secure_url'"
         end
     | cloudinary.Raised message => HTTPException 500 message
     end, db)).

(** The router: one request served against the database. *)
Definition serve (w : io) (r : request) (db : DB) : result response * DB :=
  let wrap {A : Type} (f : A → response) (x : result A * DB) : result response * DB :=
    (match x.1 with
     | Return a => Return (f a)
     | HTTPException status detail => HTTPException status detail
     | Uncaught e => Uncaught e
     end, x.2) in
  match r with
  | POST_admin_login data => wrap RToken (admin_login (clock w) data, db)
  | GET_home_content => (Return (RDict (get_home_content db)), db)
  | PUT_home_content a data => wrap RDict (update_home_content (clock w) a data db)
  | GET_categories => (Return (RList (get_categories db)), db)
  | POST_categories a b =>
      wrap RCategory
           (create_category (clock w) a (Category.validate (uuid4 w) (clock w) b) db)
  | GET_products => (Return (RList (get_products db)), db)
  | POST_products a b =>
      wrap RProduct
           (create_product (clock w) a (Product.validate (uuid4 w) (clock w) b) db)
  | PUT_products a id data => wrap RDict (update_product (clock w) a id data db)
  | DELETE_products a id => wrap RDict (delete_product (clock w) a id db)
  | POST_upload a file => wrap RDict (upload_image (clock w) a (uploader w) file db)
  end.

(** A sequence of requests, each with what it reads from outside. *)
Fixpoint run (calls : list (io * request)) (db : DB) : DB :=
  match calls with
  | [] => db
  | (w, r) :: rest => run rest (serve w r db).2
  end.

End app.

(** ** Vocabulary of the properties *)

(** A token [jwt.decode] cannot read: no three decodable segments, or a
    payload that is not a JSON object. *)
Definition malformed (t : jose.token) : bool :=
  match t with
  | jose.Unparsable _ => true
  | jose.JWS _ None _ => true
  | jose.JWS _ (Some _) _ => false
  end.

(** The token names the configured algorithm and its signature verifies
    under the configured secret. *)
Definition signature_verifies (cfg : Config) (t : jose.token) : bool :=
  match t with
  | jose.Unparsable _ => false
  | jose.JWS alg _ signed_with =>
      bool_decide (alg = JWT_ALGORITHM cfg) && bool_decide (signed_with = Some (JWT_SECRET cfg))
  end.

Definition claims_of (t : jose.token) : option (jose.Claims Z) :=
  match t with
  | jose.JWS _ (Some c) _ => Some c
  | _ => None
  end.

(** The clock's whole seconds are past the token's [exp]. *)
Definition expired (now : Z) (t : jose.token) : bool :=
  match claims_of t ≫= jose.exp with
  | Some e => bool_decide (e < jose.timegm now)
  | None => false
  end.

(** The token's [nbf] is still ahead of the clock's whole seconds. *)
Definition not_yet_valid (now : Z) (t : jose.token) : bool :=
  match claims_of t ≫= jose.nbf with
  | Some n => bool_decide (jose.timegm now < n)
  | None => false
  end.

(** Claims the library refuses when the caller names no audience and no
    access token, or that do not have the registered type. *)
Definition refused_claims (t : jose.token) : bool :=
  match claims_of t with
  | Some c =>
      bool_decide (is_Some (jose.aud c))
      || bool_decide (is_Some (jose.at_hash c))
      || from_option (negb ∘ jose.is_str) false (jose.sub c)
      || from_option (negb ∘ jose.is_str) false (jose.jti c)
  | None => false
  end.

Definition subject (t : jose.token) : option val := claims_of t ≫= jose.sub.

(** A bearer token this deployment accepts at [now]. *)
Definition authenticated (cfg : Config) (now : Z) (authorization : option jose.token) : Prop :=
  ∃ t user, authorization = Some t ∧ verify_token cfg now t = Return user.

(** A token whose signature was made with a secret other than the
    configured one. *)
Definition signed_with_other_secret (cfg : Config) (t : jose.token) : Prop :=
  ∃ alg payload key, t = jose.JWS alg payload (Some key) ∧ key ≠ JWT_SECRET cfg.

(** The [Authorization] credentials of a request to a protected endpoint. *)
Definition authorization_of (r : request) : option (option jose.token) :=
  match r with
  | PUT_home_content a _ | POST_categories a _ | POST_products a _
  | PUT_products a _ _ | DELETE_products a _ | POST_upload a _ => Some a
  | POST_admin_login _ | GET_home_content | GET_categories | GET_products => None
  end.








(** The filter of the home-content document. *)
Definition slug_home : mongo.query := ("slug", mongo.SStr "home").





(** ** Sample deployment *)

Definition cfg0 : Config :=
  {| MONGO_URL := "mongodb://localhost:27017";
     DB_NAME := "central_joias";
     JWT_SECRET := "s3cr3t";
     JWT_ALGORITHM := "HS256";
     JWT_EXPIRATION_HOURS := 24;
     ADMIN_USER := Some "admin";
     ADMIN_PASS := Some "joias123" |}.

(** 2023-11-14 22:13:20 UTC and a quarter of a second. *)
Definition t0 : Z := 1700000000250000.

Definition admin0 : AdminLogin.t :=
  {| AdminLogin.username := "admin"; AdminLogin.password := "joias123" |}.

Definition claims0 (sub : option val) (exp nbf : option Z) : jose.Claims Z :=
  {| jose.sub := sub; jose.exp := exp; jose.nbf := nbf; jose.iat := None;
     jose.aud := None; jose.jti := None; jose.at_hash := None |}.

(** The token [admin_login] issues at [t0]. *)
Definition token0 : jose.token :=
  jose.JWS "HS256" (Some (claims0 (Some (VStr "admin")) (Some 1700086400) None)) (Some "s3cr3t").

(** Correctly signed and unexpired, but not valid before the next day. *)
Definition token_nbf : jose.token :=
  jose.JWS "HS256"
           (Some (claims0 (Some (VStr "admin")) (Some 1700172800) (Some 1700086400)))
           (Some "s3cr3t").

(** The same claims as [token0], signed with another secret. *)
Definition token_other : jose.token :=
  jose.JWS "HS256" (Some (claims0 (Some (VStr "admin")) (Some 1700086400) None)) (Some "0ther").

Definition io0 : io :=
  {| clock := t0;
     uuid4 := "3f2b8c1e-0d4a-4b6f-9a57-1c2d3e4f5a6b";
     uploader := λ _ _, cloudinary.Raised "cloud_name is disabled" |}.

Definition product1 : document :=
  list_to_map [("_id", VObjectId 0); ("id", VStr "p1"); ("name", VStr "Anel");
               ("active", VBool true)].

(** One active product. *)
Definition db1 : DB :=
  {| home_content := []; categories := []; products := [product1] |}.


Definition reactivate : document := {[ "active" := VBool true ]}.

Definition branding_write : document :=
  {[ "branding" := VDict {[ "nome_loja" := VStr "Central Joias" ]} ]}.

Definition anel : Product.body :=
  Product.minimal "Anel de Prata" "aneis" (QArith_base.Qmake 1999 10).




(** A category body that chooses its id and is inactive from the start. *)
Definition hidden_category : Category.body :=
  {| Category.body_id := Some "aneis"; Category.body_nome := "Anéis";
     Category.body_slug := "aneis"; Category.body_ativo := Some false;
     Category.body_created_at := Some 0 |}.


(** ** Further vocabulary and samples *)



(** A media host that answers with a secure URL. *)
Definition uploader_ok : string → string → cloudinary.outcome :=
  λ file folder,
    cloudinary.Uploaded
      {[ "public_id" := VStr (folder +:+ "/anel");
         "secure_url" := VStr "https://res.cloudinary.com/demo/anel.jpg" ]}.

(** The number of stored documents, all collections together. *)
Definition stored (db : DB) : nat :=
  length (home_content db) + length (categories db) + length (products db).

(** The number of stored home-content documents with slug "home". *)
Definition home_documents (db : DB) : nat :=
  length (List.filter (mongo.matches slug_home) (home_content db)).

(** Requests of every kind, all with the admin's token. *)
Definition session0 : list (io * request) :=
  [ (io0, POST_categories (Some token0) hidden_category);
    (io0, PUT_home_content (Some token0) branding_write);
    (io0, POST_products (Some token0) anel);
    (io0, DELETE_products (Some token0) "p1");
    (io0, PUT_products (Some token0) "p1" reactivate);
    (io0, PUT_home_content (Some token0) {[ "slug" := VStr "natal" ]});
    (io0, PUT_home_content (Some token0) branding_write);
    (io0, GET_products) ].


(** A deployment with the same admin but another signing secret. *)
Definition cfg_other : Config :=
  {| MONGO_URL := "mongodb://localhost:27017";
     DB_NAME := "central_joias";
     JWT_SECRET := "0ther";
     JWT_ALGORITHM := "HS256";
     JWT_EXPIRATION_HOURS := 24;
     ADMIN_USER := Some "admin";
     ADMIN_PASS := Some "joias123" |}.


(** Correctly signed and unexpired, without a subject. *)
Definition token_nosub : jose.token :=
  jose.JWS "HS256" (Some (claims0 None (Some 1700086400) None)) (Some "s3cr3t").






(** * Properties *)

(** ** Token verification *)

Lemma validate_claims_None now c :
  jose.validate_claims now c = None ↔
  (∀ n, jose.nbf c = Some n → n ≤ now) ∧
  (∀ e, jose.exp c = Some e → now ≤ e) ∧
  jose.aud c = None ∧ jose.at_hash c = None ∧
  (∀ v, jose.sub c = Some v → jose.is_str v = true) ∧
  (∀ v, jose.jti c = Some v → jose.is_str v = true).
Proof.
  unfold jose.validate_claims.
  destruct c as [s e n i a j h]; simpl.
  destruct n as [n|]; [destruct (Z.ltb_spec now n)|];
    (destruct e as [e|]; [destruct (Z.ltb_spec e now)|]);
    destruct a as [av|], h as [hv|];
    (destruct s as [v|]; [destruct (jose.is_str v) eqn:?|]);
    (destruct j as [w|]; [destruct (jose.is_str w) eqn:?|]);
    cbn; split.
  all: try (intros ?; discriminate).
  all: try (intros _; repeat split; intros; simplify_eq; done || lia).
  all: intros (Hn & He & Ha & Hh & Hs & Hj); try discriminate; try done.
  all: try (specialize (Hn _ eq_refl); lia).
  all: try (specialize (He _ eq_refl); lia).
  all: try (specialize (Hs _ eq_refl); congruence).
  all: try (specialize (Hj _ eq_refl); congruence).
Qed.

Lemma decode_accepts now t key alg c :
  jose.decode now t key [alg] = inr c ↔
  t = jose.JWS alg (Some c) (Some key) ∧ jose.validate_claims (jose.timegm now) c = None.
Proof.
  unfold jose.decode. destruct t as [raw|a p k].
  { split; [done|by intros [? _]]. }
  case_bool_decide as Ha.
  2:{ split; [done|]. intros [[= -> _ _] _]. destruct Ha. apply list_elem_of_here. }
  apply list_elem_of_singleton in Ha as ->.
  case_bool_decide as Hk.
  2:{ split; [done|]. intros [[= _ ->] _]. done. }
  subst k. destruct p as [c'|].
  2:{ split; [done|by intros [? _]]. }
  destruct (jose.validate_claims _ c') eqn:Hv.
  - split; [done|]. intros [[= ->] Hv']. congruence.
  - split; [by intros [= ->]|by intros [[= ->] _]].
Qed.

Lemma verify_token_rejects cfg now t :
  (∀ c, jose.decode now t (JWT_SECRET cfg) [JWT_ALGORITHM cfg] ≠ inr c) →
  verify_token cfg now t = HTTPException 401 "Token inválido".
Proof.
  intros H. unfold verify_token.
  destruct (jose.decode _ _ _ _) as [e|c]; [done|by destruct (H c)].
Qed.

(** C1 (as amended): [verify_token] answers 401 "Token inválido" for a
    token that is malformed, whose signature does not verify under the
    configured secret and algorithm, that is expired, that is not yet valid,
    or that carries a claim the library refuses; for every other token that
    has a [sub] claim it returns that subject, a string. *)
Theorem verify_token_outcome cfg now t :
  (malformed t = true ∨ signature_verifies cfg t = false ∨ expired now t = true
   ∨ not_yet_valid now t = true ∨ refused_claims t = true →
   verify_token cfg now t = HTTPException 401 "Token inválido")
  ∧ (malformed t = false → signature_verifies cfg t = true → expired now t = false →
     not_yet_valid now t = false → refused_claims t = false →
     ∀ s, subject t = Some s →
          verify_token cfg now t = Return s ∧ ∃ name, s = VStr name).
Proof.
  split.
  - intros Hbad. apply verify_token_rejects. intros c [-> Hv]%decode_accepts.
    apply validate_claims_None in Hv as (Hn & He & Ha & Hh & Hs & Hj).
    unfold signature_verifies, expired, not_yet_valid, refused_claims in Hbad.
    simpl in Hbad. rewrite !bool_decide_eq_true_2 in Hbad by done.
    rewrite Ha, Hh in Hbad. simpl in Hbad.
    destruct Hbad as [?|[?|[Hb|[Hb|Hb]]]]; try done.
    + destruct (jose.exp c) as [e|] eqn:E; [|done]. simpl in Hb.
      apply bool_decide_eq_true_1 in Hb. specialize (He e eq_refl). lia.
    + destruct (jose.nbf c) as [n|] eqn:E; [|done]. simpl in Hb.
      apply bool_decide_eq_true_1 in Hb. specialize (Hn n eq_refl). lia.
    + try rewrite !bool_decide_eq_false_2 in Hb by (by intros [??]). simpl in Hb.
      apply orb_true_iff in Hb as [Hb|Hb].
      * destruct (jose.sub c) as [v|] eqn:E; [|done]. simpl in Hb.
        rewrite (Hs v eq_refl) in Hb. done.
      * destruct (jose.jti c) as [v|] eqn:E; [|done]. simpl in Hb.
        rewrite (Hj v eq_refl) in Hb. done.
  - intros Hm Hsig Hexp Hnbf Href s Hsub.
    destruct t as [raw|alg [c|] k]; try done.
    apply andb_true_iff in Hsig as [->%bool_decide_eq_true_1 ->%bool_decide_eq_true_1].
    unfold expired, not_yet_valid, refused_claims, subject in *. simpl in *.
    apply orb_false_iff in Href as [[[Ha Hh]%orb_false_iff Hs]%orb_false_iff Hj].
    apply bool_decide_eq_false_1 in Ha, Hh.
    assert (Hv : jose.validate_claims (jose.timegm now) c = None).
    { apply validate_claims_None. repeat split.
      - intros n E. rewrite E in Hnbf. simpl in Hnbf.
        apply bool_decide_eq_false_1 in Hnbf. lia.
      - intros e E. rewrite E in Hexp. simpl in Hexp.
        apply bool_decide_eq_false_1 in Hexp. lia.
      - destruct (jose.aud c); [destruct Ha; eauto|done].
      - destruct (jose.at_hash c); [destruct Hh; eauto|done].
      - intros v E. rewrite E in Hs. simpl in Hs. by apply negb_false_iff.
      - intros v E. rewrite E in Hj. simpl in Hj. by apply negb_false_iff. }
    unfold verify_token.
    rewrite (proj2 (decode_accepts now _ _ _ c) (conj eq_refl Hv)).
    rewrite Hsub. split; [done|].
    rewrite Hsub in Hs. simpl in Hs. destruct s; try done. eauto.
Qed.

Lemma verify_token_outcome_witness :
  verify_token cfg0 t0 token_other = HTTPException 401 "Token inválido"
  ∧ verify_token cfg0 t0 token0 = Return (VStr "admin").
Proof.
  split.
  - apply (proj1 (verify_token_outcome cfg0 t0 token_other)).
    right; left. reflexivity.
  - apply (proj2 (verify_token_outcome cfg0 t0 token0)); reflexivity.
Defined.

(** C1 (as stated) fails: [token_nbf] is well formed, correctly signed and
    unexpired, and carries the subject "admin", yet it is answered 401. *)
Lemma verify_token_not_yet_valid_rejected :
  malformed token_nbf = false
  ∧ signature_verifies cfg0 token_nbf = true
  ∧ expired t0 token_nbf = false
  ∧ subject token_nbf = Some (VStr "admin")
  ∧ verify_token cfg0 t0 token_nbf = HTTPException 401 "Token inválido"
  ∧ verify_token cfg0 t0 token_nbf ≠ Return (VStr "admin").
Proof. repeat split; try reflexivity. discriminate. Qed.

(** A correctly signed, unexpired token without [sub]: the [KeyError]
    raised by [payload["sub"]] is not a [JWTError] and escapes. *)
Remark verify_token_without_sub :
  verify_token cfg0 t0 (jose.JWS "HS256" (Some (claims0 None (Some 1700086400) None)) (Some "s3cr3t"))
  = Uncaught (KeyError "sub").
Proof. reflexivity. Qed.

(** ** Login *)



(** ** Token lifetime *)

Lemma timegm_add_hours now h :
  jose.timegm (now + timedelta_hours h) = jose.timegm now + 3600 * h.
Proof.
  unfold jose.timegm, timedelta_hours.
  replace (now + h * 3600000000) with (now + (3600 * h) * 1000000) by lia.
  apply Z.div_add. lia.
Qed.

Lemma timegm_mono a b : a ≤ b → jose.timegm a ≤ jose.timegm b.
Proof. intros H. unfold jose.timegm. apply Z.div_le_mono; lia. Qed.

Lemma admin_login_token cfg now data tok :
  admin_login cfg now data = Return tok →
  Token.access_token tok =
    jose.JWS (JWT_ALGORITHM cfg)
             (Some (claims0 (Some (VStr (AdminLogin.username data)))
                            (Some (jose.timegm now + 3600 * JWT_EXPIRATION_HOURS cfg)) None))
             (Some (JWT_SECRET cfg)).
Proof.
  unfold admin_login. case_match; [done|]. intros [= <-]. simpl.
  unfold jose.encode, claims0. simpl. by rewrite timegm_add_hours.
Qed.

Lemma verify_issued cfg T user e :
  verify_token cfg T
    (jose.JWS (JWT_ALGORITHM cfg) (Some (claims0 (Some (VStr user)) (Some e) None))
              (Some (JWT_SECRET cfg)))
  = if bool_decide (e < jose.timegm T)
    then HTTPException 401 "Token inválido"
    else Return (VStr user).
Proof.
  unfold verify_token, jose.decode.
  rewrite bool_decide_eq_true_2 by set_solver.
  rewrite bool_decide_eq_true_2 by done.
  unfold jose.validate_claims. simpl.
  case_bool_decide as H; destruct (Z.ltb_spec e (jose.timegm T)); try lia; done.
Qed.

(** C4 (as amended): the token issued by a successful login at [now] names
    the submitted username as subject and expires at the whole second of
    [now] plus the configured hours (24 when the variable is unset); it
    verifies to that username at every time before [now] plus the lifetime
    and up to the end of the expiry second, and is answered 401 from the
    next whole second on. *)
Theorem issued_token_lifetime cfg now data tok :
  admin_login cfg now data = Return tok →
  let user := AdminLogin.username data in
  let expire := now + timedelta_hours (JWT_EXPIRATION_HOURS cfg) in
  subject (Token.access_token tok) = Some (VStr user)
  ∧ claims_of (Token.access_token tok) ≫= jose.exp = Some (jose.timegm expire)
  ∧ (∀ T, T < expire → verify_token cfg T (Token.access_token tok) = Return (VStr user))
  ∧ (∀ T, jose.timegm T ≤ jose.timegm expire →
          verify_token cfg T (Token.access_token tok) = Return (VStr user))
  ∧ (∀ T, jose.timegm expire < jose.timegm T →
          verify_token cfg T (Token.access_token tok) = HTTPException 401 "Token inválido")
  ∧ (∀ T, expire + 1000000 ≤ T →
          verify_token cfg T (Token.access_token tok) = HTTPException 401 "Token inválido")
  ∧ (∀ env, load_config env = Some cfg → env_JWT_EXPIRATION_HOURS env = None →
            JWT_EXPIRATION_HOURS cfg = 24).
Proof.
  intros Hlogin user expire.
  pose proof (admin_login_token _ _ _ _ Hlogin) as ->.
  assert (Hexp : jose.timegm expire = jose.timegm now + 3600 * JWT_EXPIRATION_HOURS cfg)
    by apply timegm_add_hours.
  rewrite Hexp.
  assert (Hok : ∀ T, jose.timegm T ≤ jose.timegm now + 3600 * JWT_EXPIRATION_HOURS cfg →
                     verify_token cfg T
                       (jose.JWS (JWT_ALGORITHM cfg)
                          (Some (claims0 (Some (VStr user))
                             (Some (jose.timegm now + 3600 * JWT_EXPIRATION_HOURS cfg)) None))
                          (Some (JWT_SECRET cfg))) = Return (VStr user)).
  { intros T HT. rewrite verify_issued. rewrite bool_decide_eq_false_2 by lia. done. }
  assert (Hko : ∀ T, jose.timegm now + 3600 * JWT_EXPIRATION_HOURS cfg < jose.timegm T →
                     verify_token cfg T
                       (jose.JWS (JWT_ALGORITHM cfg)
                          (Some (claims0 (Some (VStr user))
                             (Some (jose.timegm now + 3600 * JWT_EXPIRATION_HOURS cfg)) None))
                          (Some (JWT_SECRET cfg))) = HTTPException 401 "Token inválido").
  { intros T HT. rewrite verify_issued. rewrite bool_decide_eq_true_2 by lia. done. }
  split; [done|]. split; [done|].
  split. { intros T HT. apply Hok. rewrite <- Hexp. apply timegm_mono. lia. }
  split; [done|]. split; [done|].
  split.
  { intros T HT. apply Hko. rewrite <- Hexp.
    assert (jose.timegm (expire + 1000000) = jose.timegm expire + 1) as E.
    { unfold jose.timegm. replace (expire + 1000000) with (expire + 1 * 1000000) by lia.
      apply Z.div_add. lia. }
    pose proof (timegm_mono _ _ HT). lia. }
  intros env Hload Hunset. unfold load_config in Hload.
  repeat case_match; simplify_eq. simpl. by rewrite Hunset.
Qed.

Lemma issued_token_lifetime_witness :
  verify_token cfg0 (t0 + 3600000000) token0 = Return (VStr "admin")
  ∧ verify_token cfg0 (t0 + timedelta_hours 25) token0 = HTTPException 401 "Token inválido".
Proof.
  pose proof (issued_token_lifetime cfg0 t0 admin0
                {| Token.access_token := token0; Token.token_type := "bearer" |}
                eq_refl) as (_ & _ & Hbefore & _ & _ & Hafter & _).
  split.
  - apply Hbefore. reflexivity.
  - apply Hafter. discriminate.
Defined.

(** C4 (as stated) fails: exactly 24 hours after its issue, the token of a
    24-hour deployment still verifies. *)
Lemma token_accepted_at_expiry :
  admin_login cfg0 t0 admin0
  = Return {| Token.access_token := token0; Token.token_type := "bearer" |}
  ∧ t0 + timedelta_hours (JWT_EXPIRATION_HOURS cfg0) ≤ t0 + timedelta_hours 24
  ∧ verify_token cfg0 (t0 + timedelta_hours 24) token0 = Return (VStr "admin").
Proof. repeat split. discriminate. Qed.

(** ** Protected endpoints *)

Lemma Depends_invalid_token {A} cfg status now t (body : val → DB → result A * DB) db :
  verify_token cfg now t = HTTPException 401 "Token inválido" →
  Depends_verify_token cfg status now (Some t) body db
  = (HTTPException 401 "Token inválido", db).
Proof. intros H. unfold Depends_verify_token. simpl. by rewrite H. Qed.

Lemma Depends_authenticated {A} cfg status now a (body : val → DB → result A * DB) db :
  authenticated cfg now a →
  ∃ user, Depends_verify_token cfg status now a body db = body user db.
Proof.
  intros (t & user & -> & H). exists user.
  unfold Depends_verify_token. simpl. by rewrite H.
Qed.

Lemma other_secret_rejected cfg now t :
  signed_with_other_secret cfg t →
  verify_token cfg now t = HTTPException 401 "Token inválido".
Proof.
  intros (alg & p & k & -> & Hk).
  apply verify_token_rejects. intros c [E _]%decode_accepts. congruence.
Qed.

(** C2 (as amended): a request to a protected endpoint that carries no
    bearer credentials is turned away by [HTTPBearer] with its own status
    and "Not authenticated", and one whose token is signed with another
    secret is answered 401 "Token inválido"; in both cases the database is
    left as it was. *)
Theorem unauthorized_request_rejected cfg status w r a db :
  authorization_of r = Some a →
  (a = None →
   serve cfg status w r db = (HTTPException status "Not authenticated", db))
  ∧ (∀ t, a = Some t → signed_with_other_secret cfg t →
          serve cfg status w r db = (HTTPException 401 "Token inválido", db)).
Proof.
  intros Hr. split.
  - intros ->. destruct r; simplify_eq/=; reflexivity.
  - intros t -> Hother.
    pose proof (other_secret_rejected cfg (clock w) t Hother) as Hv.
    destruct r; simplify_eq/=;
      unfold update_home_content, create_category, create_product, update_product,
             delete_product, upload_image;
      rewrite Depends_invalid_token by done; reflexivity.
Qed.

Lemma unauthorized_request_rejected_witness :
  serve cfg0 403 io0 (PUT_products None "p1" {[ "price" := VInt 1 ]}) db1
  = (HTTPException 403 "Not authenticated", db1)
  ∧ serve cfg0 403 io0 (DELETE_products (Some token_other) "p1") db1
    = (HTTPException 401 "Token inválido", db1).
Proof.
  split.
  - apply (proj1 (unauthorized_request_rejected cfg0 403 io0
                    (PUT_products None "p1" {[ "price" := VInt 1 ]}) None db1 eq_refl)).
    reflexivity.
  - apply (proj2 (unauthorized_request_rejected cfg0 403 io0
                    (DELETE_products (Some token_other) "p1") (Some token_other) db1 eq_refl)
                 token_other eq_refl).
    exists "HS256", (Some (claims0 (Some (VStr "admin")) (Some 1700086400) None)), "0ther".
    split; [reflexivity|discriminate].
Defined.

(** C2 (as stated) fails: under the [HTTPBearer] of the older FastAPI
    releases, which answers 403, a DELETE without an [Authorization] header
    is not answered 401. *)
Lemma missing_header_is_403 :
  authorization_of (DELETE_products None "p1") = Some None
  ∧ serve cfg0 403 io0 (DELETE_products None "p1") db1
    = (HTTPException 403 "Not authenticated", db1)
  ∧ (∀ detail, (serve cfg0 403 io0 (DELETE_products None "p1") db1).1
               ≠ HTTPException 401 detail).
Proof. repeat split. intros detail. discriminate. Qed.

(** ** Listings *)








(** ** Updates *)



Lemma update_first_None coll q data :
  mongo.update_first coll q data = None ↔ ∀ d, d ∈ coll → mongo.matches q d = false.
Proof.
  induction coll as [|d coll IH]; simpl.
  - split; [intros _ d Hd; by apply elem_of_nil in Hd|done].
  - destruct (mongo.matches q d) eqn:Hm.
    + split; [done|]. intros H. specialize (H d (list_elem_of_here _ _)). congruence.
    + rewrite fmap_None, IH. split.
      * intros H d' [->|Hd']%elem_of_cons; auto.
      * intros H d' Hd'. apply H. by apply list_elem_of_further.
Qed.

Lemma update_first_Some coll q data coll' :
  mongo.update_first coll q data = Some coll' →
  ∃ i d, coll !! i = Some d ∧ mongo.matches q d = true
         ∧ (∀ j d', (j < i)%nat → coll !! j = Some d' → mongo.matches q d' = false)
         ∧ coll' = <[i := mongo.set_fields data d]> coll.
Proof.
  revert coll'. induction coll as [|d coll IH]; intros coll'; simpl; [done|].
  destruct (mongo.matches q d) eqn:Hm.
  - intros [= <-]. exists 0%nat, d. repeat split; try done. intros j d' Hj. lia.
  - intros (rest & Hrest & ->)%fmap_Some.
    destruct (IH rest Hrest) as (i & d0 & Hi & Hd0 & Hfirst & ->).
    exists (S i), d0. repeat split; try done.
    intros [|j] d' Hj; simpl; [by intros [= <-]|]. apply Hfirst. lia.
Qed.


Lemma update_one_cases coll q data :
  (mongo.update_one coll q data false = coll
   ∧ ∀ d, d ∈ coll → mongo.matches q d = false)
  ∨ ∃ i d, coll !! i = Some d ∧ mongo.matches q d = true
           ∧ (∀ j d', (j < i)%nat → coll !! j = Some d' → mongo.matches q d' = false)
           ∧ mongo.update_one coll q data false = <[i := mongo.set_fields data d]> coll.
Proof.
  unfold mongo.update_one.
  destruct (mongo.update_first coll q data) as [coll'|] eqn:E.
  - right. apply update_first_Some in E as (i & d & ? & ? & ? & ->). eauto 10.
  - left. split; [done|]. exact (proj1 (update_first_None _ _ _) E).
Qed.


Lemma update_one_length coll q data :
  length (mongo.update_one coll q data false) = length coll.
Proof.
  destruct (update_one_cases coll q data) as [[-> _]|(i & d & _ & _ & _ & ->)]; [done|].
  apply length_insert.
Qed.


(** An authenticated request runs the handler body. *)
Ltac depends_authenticated H :=
  match goal with
  | |- context [Depends_verify_token ?c ?s ?n ?a ?b ?db] =>
      let user := fresh "user" in
      destruct (Depends_authenticated c s n a b db H) as [user ->]
  end.



(** ** Soft deletion *)

Lemma Depends_cases {A} cfg status now a (body : val → DB → result A * DB) db :
  (∃ user, Depends_verify_token cfg status now a body db = body user db)
  ∨ (Depends_verify_token cfg status now a body db).2 = db.
Proof.
  unfold Depends_verify_token.
  destruct (security status a) as [t| |]; [|by right..].
  destruct (verify_token cfg now t) as [user| |]; [left; eauto|by right..].
Qed.



(** Case analysis on the dependency of a protected handler: either its
    body ran, or the database is untouched. *)
Ltac depends_cases user E :=
  match goal with
  | |- context [Depends_verify_token ?c ?s ?n ?a ?b ?db] =>
      destruct (Depends_cases c s n a b db) as [[user E]|E]; rewrite E
  end.







(** ** Home content *)

Lemma filter_no_match coll q :
  (∀ d, d ∈ coll → mongo.matches q d = false) → List.filter (mongo.matches q) coll = [].
Proof.
  induction coll as [|d coll IH]; intros H; simpl; [done|].
  rewrite (H d) by apply list_elem_of_here.
  apply IH. intros d' Hd'. apply H. by apply list_elem_of_further.
Qed.




Lemma with_id_lookup n (d : document) k : k ≠ "_id" → mongo.with_id n d !! k = d !! k.
Proof.
  intros Hk. unfold mongo.with_id. destruct (d !! "_id"); [done|].
  by rewrite lookup_insert_ne.
Qed.

Lemma without_id_lookup (d : document) k : k ≠ "_id" → mongo.without_id d !! k = d !! k.
Proof. intros Hk. unfold mongo.without_id. by rewrite lookup_delete_ne. Qed.





(** ** Creation *)


Lemma without_with_id n (d : document) :
  d !! "_id" = None → mongo.without_id (mongo.with_id n d) = d.
Proof.
  intros H. unfold mongo.without_id, mongo.with_id. rewrite H.
  by apply delete_insert_id.
Qed.













(** * Further properties *)

(** ** Start-up *)





(** ** Upload *)

(** X2: for an authenticated request, POST /upload hands the file to the
    media host under the folder central_joias/products and answers
    [{"url": ...}] with the host's [secure_url]; when the host raises, or
    answers without a [secure_url], the request is answered 500 with the
    failure's text.  The database is the same afterwards in every case. *)
Theorem upload_image_outcome cfg status now a upload file db :
  authenticated cfg now a →
  let answer := upload_image cfg status now a upload file db in
  answer.2 = db
  ∧ (∀ result url,
       upload file "central_joias/products" = cloudinary.Uploaded result →
       result !! "secure_url" = Some url →
       answer.1 = Return {[ "url" := url ]})
  ∧ (∀ result,
       upload file "central_joias/products" = cloudinary.Uploaded result →
       result !! "secure_url" = None →
       answer.1 = HTTPException 500 "'secure_url'")
  ∧ (∀ message,
       upload file "central_joias/products" = cloudinary.Raised message →
       answer.1 = HTTPException 500 message).
Proof.
  intros Hauth. unfold upload_image. depends_authenticated Hauth. simpl.
  split; [done|]. split; [|split].
  - intros result url -> ->. done.
  - intros result -> ->. done.
  - intros message ->. done.
Qed.

Lemma upload_image_outcome_witness :
  upload_image cfg0 403 t0 (Some token0) uploader_ok "anel.jpg" db1
  = (Return {[ "url" := VStr "https://res.cloudinary.com/demo/anel.jpg" ]}, db1)
  ∧ upload_image cfg0 403 t0 (Some token0) (uploader io0) "anel.jpg" db1
    = (HTTPException 500 "cloud_name is disabled", db1).
Proof.
  assert (Hauth : authenticated cfg0 t0 (Some token0)).
  { exists token0, (VStr "admin"). split; reflexivity. }
  destruct (upload_image_outcome cfg0 403 t0 (Some token0) uploader_ok "anel.jpg" db1 Hauth)
    as (Hdb & Hurl & _).
  destruct (upload_image_outcome cfg0 403 t0 (Some token0) (uploader io0) "anel.jpg" db1 Hauth)
    as (Hdb' & _ & _ & Hraised).
  split; apply injective_projections;
    [eapply Hurl; reflexivity|exact Hdb|eapply Hraised; reflexivity|exact Hdb'].
Defined.

(** ** What requests leave alone *)



(** X4: each endpoint writes to its own collection only: PUT /home-content
    leaves categories and products alone, POST /categories leaves home
    content and products alone, the product endpoints leave home content
    and categories alone, and login, the three GETs and POST /upload leave
    the whole database alone. *)
Theorem endpoint_writes_own_collection cfg status w r db :
  let db' := (serve cfg status w r db).2 in
  match r with
  | PUT_home_content _ _ =>
      categories db' = categories db ∧ products db' = products db
  | POST_categories _ _ =>
      home_content db' = home_content db ∧ products db' = products db
  | POST_products _ _ | PUT_products _ _ _ | DELETE_products _ _ =>
      home_content db' = home_content db ∧ categories db' = categories db
  | POST_admin_login _ | GET_home_content | GET_categories | GET_products
  | POST_upload _ _ => db' = db
  end.
Proof.
  destruct r as [login| |a data| |a b| |a b|a id data|a id|a file]; simpl;
    try done;
    unfold update_home_content, create_category, create_product, update_product,
           delete_product, upload_image;
    depends_cases user E; try done; by rewrite E.
Qed.

(** ** Growth of the collections *)

Lemma update_one_length_upsert coll q data upsert :
  (length coll ≤ length (mongo.update_one coll q data upsert) ≤ S (length coll))%nat.
Proof.
  unfold mongo.update_one.
  destruct (mongo.update_first coll q data) as [coll'|] eqn:E.
  - apply update_first_Some in E as (i & d & _ & _ & _ & ->). rewrite length_insert. lia.
  - destruct upsert; [|lia]. unfold mongo.insert_one. rewrite length_app. simpl. lia.
Qed.

Lemma serve_categories_prefix cfg status w r db :
  categories db `prefix_of` categories (serve cfg status w r db).2.
Proof.
  destruct r as [login| |a data| |a b| |a b|a id data|a id|a file]; simpl;
    try done;
    unfold update_home_content, create_category, create_product, update_product,
           delete_product, upload_image;
    depends_cases user E; try done; simpl.
  by apply prefix_app_r.
Qed.

(** X5: stored categories are never altered: under every sequence of
    requests the category collection keeps its documents, unchanged and in
    place, and only grows at its end. *)
Theorem categories_only_appended cfg status calls db :
  categories db `prefix_of` categories (run cfg status calls db).
Proof.
  revert db. induction calls as [|[w r] calls IH]; intros db; simpl; [done|].
  etrans; [apply serve_categories_prefix|apply IH].
Qed.

Lemma serve_lengths cfg status w r db :
  let db' := (serve cfg status w r db).2 in
  (length (home_content db) ≤ length (home_content db')
   ∧ length (categories db) ≤ length (categories db')
   ∧ length (products db) ≤ length (products db')
   ∧ stored db' ≤ S (stored db))%nat.
Proof.
  unfold stored. cbv zeta.
  destruct r as [login| |a data| |a b| |a b|a id data|a id|a file]; simpl;
    try lia;
    unfold update_home_content, create_category, create_product, update_product,
           delete_product, upload_image;
    depends_cases user E; try lia; simpl.
  - pose proof (update_one_length_upsert (home_content db) ("slug", mongo.SStr "home") data true).
    lia.
  - unfold mongo.insert_one. rewrite length_app. simpl. lia.
  - unfold mongo.insert_one. rewrite length_app. simpl. lia.
  - rewrite update_one_length. lia.
  - rewrite update_one_length. lia.
  - lia.
Qed.

(** X6: no request removes a document: along every sequence of requests
    no collection ever gets shorter, and the database grows by at most one
    document per request. *)
Theorem documents_never_removed cfg status calls db :
  let db' := run cfg status calls db in
  (length (home_content db) ≤ length (home_content db')
   ∧ length (categories db) ≤ length (categories db')
   ∧ length (products db) ≤ length (products db')
   ∧ stored db' ≤ stored db + length calls)%nat.
Proof.
  revert db. induction calls as [|[w r] calls IH]; intros db; simpl; [lia|].
  pose proof (serve_lengths cfg status w r db) as Hstep.
  pose proof (IH (serve cfg status w r db).2) as Hrest.
  simpl in Hstep, Hrest. lia.
Qed.

(** ** The home-content document *)

Lemma update_first_matches_le coll q data coll' :
  mongo.update_first coll q data = Some coll' →
  (length (List.filter (mongo.matches q) coll')
   ≤ length (List.filter (mongo.matches q) coll))%nat.
Proof.
  revert coll'. induction coll as [|d coll IH]; intros coll'; simpl; [done|].
  destruct (mongo.matches q d) eqn:Hm.
  - intros [= <-]. simpl. destruct (mongo.matches q (mongo.set_fields data d)); simpl; lia.
  - intros (rest & Hrest & ->)%fmap_Some. simpl. rewrite Hm. by apply IH.
Qed.

Lemma serve_home_documents cfg status w r db :
  (home_documents db ≤ 1 → home_documents (serve cfg status w r db).2 ≤ 1)%nat.
Proof.
  unfold home_documents.
  destruct r as [login| |a data| |a b| |a b|a id data|a id|a file]; simpl;
    try done;
    unfold update_home_content, create_category, create_product, update_product,
           delete_product, upload_image;
    depends_cases user E; try done; simpl.
  fold slug_home. unfold mongo.update_one. intros Hone.
  destruct (mongo.update_first (home_content db) slug_home data) as [coll'|] eqn:Hup.
  - pose proof (update_first_matches_le _ _ _ _ Hup). lia.
  - pose proof (proj1 (update_first_None _ _ _) Hup) as Hnone.
    unfold mongo.insert_one. rewrite List.filter_app, length_app, filter_no_match by done.
    simpl. destruct (mongo.matches slug_home _); simpl; lia.
Qed.

(** X7: the home-content collection never holds more than one document
    with slug "home": a database that has at most one keeps at most one
    under every sequence of requests. *)
Theorem one_home_document cfg status calls db :
  (home_documents db ≤ 1 → home_documents (run cfg status calls db) ≤ 1)%nat.
Proof.
  revert db. induction calls as [|[w r] calls IH]; intros db Hone; simpl; [done|].
  by apply IH, serve_home_documents.
Qed.

Lemma one_home_document_witness :
  (home_documents (run cfg0 403 session0 empty_db) ≤ 1)%nat
  ∧ length (home_content (run cfg0 403 session0 empty_db)) = 2%nat.
Proof.
  split; [|reflexivity].
  apply (one_home_document cfg0 403 session0 empty_db). vm_compute. lia.
Defined.





(** ** Soft deletion and the listing *)



(** ** Tokens *)

(** X10: a token issued by [admin_login] under one configuration is
    answered 401 by [verify_token] under a configuration with another
    secret or another algorithm, at every time. *)
Theorem foreign_token_rejected cfg cfg' now T data tok :
  admin_login cfg now data = Return tok →
  JWT_SECRET cfg ≠ JWT_SECRET cfg' ∨ JWT_ALGORITHM cfg ≠ JWT_ALGORITHM cfg' →
  verify_token cfg' T (Token.access_token tok) = HTTPException 401 "Token inválido".
Proof.
  intros ->%admin_login_token Hdiff.
  apply verify_token_rejects. intros c [[= Halg Hkey] _]%decode_accepts.
  destruct Hdiff; congruence.
Qed.

Lemma foreign_token_rejected_witness :
  verify_token cfg_other (t0 + 1) token0 = HTTPException 401 "Token inválido".
Proof.
  apply (foreign_token_rejected cfg0 cfg_other t0 (t0 + 1) admin0
           {| Token.access_token := token0; Token.token_type := "bearer" |} eq_refl).
  left. discriminate.
Defined.



(** X12: a bearer token that decodes under the configured secret and
    algorithm but has no [sub] claim makes every protected endpoint fail
    with the uncaught [KeyError] of [payload["sub"]] (not with 401), and
    the database stays as it was. *)
Theorem token_without_sub_uncaught cfg status w r t c db :
  authorization_of r = Some (Some t) →
  jose.decode (clock w) t (JWT_SECRET cfg) [JWT_ALGORITHM cfg] = inr c →
  jose.sub c = None →
  serve cfg status w r db = (Uncaught (KeyError "sub"), db).
Proof.
  intros Hr Hdecode Hsub.
  assert (Hv : verify_token cfg (clock w) t = Uncaught (KeyError "sub")).
  { unfold verify_token. by rewrite Hdecode, Hsub. }
  destruct r; simplify_eq/=;
    unfold update_home_content, create_category, create_product, update_product,
           delete_product, upload_image, Depends_verify_token;
    simpl; rewrite Hv; reflexivity.
Qed.

Lemma token_without_sub_uncaught_witness :
  serve cfg0 403 io0 (DELETE_products (Some token_nosub) "p1") db1
  = (Uncaught (KeyError "sub"), db1).
Proof.
  apply (token_without_sub_uncaught cfg0 403 io0 (DELETE_products (Some token_nosub) "p1")
           token_nosub (claims0 None (Some 1700086400) None) db1); reflexivity.
Defined.

(** ** Creation and the listing *)





(** ** Successive updates *)









(** ** Products that share an id *)




(** ** Login, then write *)



(** ** What is stored and what is shown *)

Lemma serve_categories_validated cfg status w r db :
  Forall (λ d, ∃ c, mongo.without_id d = Category.model_dump c) (categories db) →
  Forall (λ d, ∃ c, mongo.without_id d = Category.model_dump c)
         (categories (serve cfg status w r db).2).
Proof.
  intros Hdb.
  destruct r as [login| |a data| |a b| |a b|a id data|a id|a file]; simpl;
    try done;
    unfold update_home_content, create_category, create_product, update_product,
           delete_product, upload_image;
    depends_cases user E; try done; simpl.
  unfold mongo.insert_one. apply Forall_app. split; [done|].
  apply Forall_singleton. eexists. by apply without_with_id.
Qed.

(** X18: starting from the empty database, whatever requests are served,
    every stored category is the dump of a validated [Category] record (plus
    its [_id]): no endpoint can store a category of another shape or alter
    one afterwards, so in particular [ativo] is always a boolean. *)
Theorem stored_categories_are_records cfg status calls d :
  d ∈ categories (run cfg status calls empty_db) →
  ∃ c, mongo.without_id d = Category.model_dump c
       ∧ d !! "ativo" = Some (VBool (Category.ativo c))
       ∧ d !! "slug" = Some (VStr (Category.slug c)).
Proof.
  assert (Hinv : ∀ db,
            Forall (λ d, ∃ c, mongo.without_id d = Category.model_dump c) (categories db) →
            Forall (λ d, ∃ c, mongo.without_id d = Category.model_dump c)
                   (categories (run cfg status calls db))).
  { induction calls as [|[w r] calls IH]; intros db Hdb; simpl; [done|].
    by apply IH, serve_categories_validated. }
  intros Hd.
  pose proof (proj1 (Forall_forall _ _) (Hinv empty_db (Forall_nil_2 _)) d Hd) as [c Hc].
  exists c. split; [done|].
  rewrite <- (without_id_lookup d "ativo"), <- (without_id_lookup d "slug") by done.
  rewrite Hc. split; vm_compute; reflexivity.
Qed.

Lemma stored_categories_are_records_witness :
  ∃ c, Category.ativo c = false
       ∧ categories (run cfg0 403 session0 empty_db) !! 0%nat
           ≫= (.!! "ativo") = Some (VBool (Category.ativo c)).
Proof.
  destruct (stored_categories_are_records cfg0 403 session0
              (mongo.with_id 0 (Category.model_dump
                                  (Category.validate (uuid4 io0) (clock io0) hidden_category))))
    as (c & Hc & Hativo & _).
  - apply list_elem_of_here.
  - exists c. split; [|exact Hativo].
    rewrite with_id_lookup in Hativo by done.
    change (Some (VBool false) = Some (VBool (Category.ativo c))) in Hativo.
    by injection Hativo.
Defined.

Lemma listing_hides_id coll q n r :
  r ∈ mongo.to_list n (mongo.find coll q) → r !! "_id" = None.
Proof.
  intros Hr%subseteq_take. unfold mongo.find in Hr.
  apply list_elem_of_fmap in Hr as (d & -> & _). apply lookup_delete_eq.
Qed.

(** X19: no read endpoint shows MongoDB's [_id]: every document listed by
    GET /categories and GET /products, and the document returned by GET
    /home-content, is without an [_id] field, whatever is stored. *)
Theorem reads_hide_object_id db :
  (∀ r, r ∈ get_categories db → r !! "_id" = None)
  ∧ (∀ r, r ∈ get_products db → r !! "_id" = None)
  ∧ get_home_content db !! "_id" = None.
Proof.
  split; [intros r; apply listing_hides_id|].
  split; [intros r; apply listing_hides_id|].
  unfold get_home_content, mongo.find_one.
  destruct (head _) as [data|] eqn:Hhead; [|vm_compute; reflexivity].
  case_bool_decide; [vm_compute; reflexivity|].
  apply head_Some_elem_of in Hhead. unfold mongo.find in Hhead.
  apply list_elem_of_fmap in Hhead as (d & -> & _). apply lookup_delete_eq.
Qed.
